(** * viral-content-machine.py: top posts and their top comments

    A shallow embedding of [src/viral-content-machine.py].  The script
    prints as it goes, raises and catches exceptions and may leave the
    process through [exit]; these effects are kept explicit in a small
    monad over the standard output.  The remote platform client (praw)
    and [textwrap.fill] are libraries outside the repository: the data
    the client hands back is an input of the model, and [textwrap.fill]
    is a parameter of the development. *)

From Stdlib Require Import ZArith List String Ascii Bool Lia.
From Stdlib Require Import DecimalString.
Import ListNotations.

Open Scope string_scope.
Open Scope list_scope.
Open Scope Z_scope.

(** ** Python values as they are printed *)

(** [str(n)] for a Python [int]. *)
Definition str_of_int (n : Z) : string :=
  NilZero.string_of_int (Z.to_int n).

(** [s * n] for a Python string [s]. *)
Fixpoint str_mul (s : string) (n : nat) : string :=
  match n with
  | O => ""
  | S k => (s ++ str_mul s k)%string
  end.

(** ** Effects: printing, exceptions, [exit] *)

(** Standard output, one entry for each call of [print]. *)
Definition stdout := list string.

(** How a piece of code ends.  [exit(n)] raises [SystemExit], which
    [except Exception] does not catch: it is kept apart from [Raised]. *)
Inductive outcome (A : Type) : Type :=
| Normal (a : A)
| Raised (e : string)
| Exited (status : Z).

Arguments Normal {A} a.
Arguments Raised {A} e.
Arguments Exited {A} status.

Definition IO (A : Type) : Type := stdout -> stdout * outcome A.

Definition ret {A} (a : A) : IO A := fun out => (out, Normal a).

Definition bind {A B} (m : IO A) (k : A -> IO B) : IO B :=
  fun out =>
    match m out with
    | (out', Normal a) => k a out'
    | (out', Raised e) => (out', Raised e)
    | (out', Exited n) => (out', Exited n)
    end.

Definition print (s : string) : IO unit :=
  fun out => (out ++ [s], Normal tt).

Definition raise {A} (e : string) : IO A := fun out => (out, Raised e).

Definition exit {A} (status : Z) : IO A := fun out => (out, Exited status).

(** [try: m  except Exception as e: handler e]. *)
Definition try_except {A} (m : IO A) (handler : string -> IO A) : IO A :=
  fun out =>
    match m out with
    | (out', Raised e) => handler e out'
    | r => r
    end.

Declare Scope io_scope.
Delimit Scope io_scope with io.
Notation "x <- m ;; k" := (bind m (fun x => k))
  (at level 100, m at next level, right associativity) : io_scope.
Notation "m ;; k" := (bind m (fun _ => k))
  (at level 100, right associativity) : io_scope.


(** ** Data handed back by the platform client *)

Record Comment : Type := mkComment {
  body : string;
  comment_score : Z;
  stickied : bool
}.

(** An entry of a post's top-level comment collection: a comment, or a
    "load more" placeholder standing for comments the first response
    left out. *)
Inductive ForestItem : Type :=
| IsComment (c : Comment)
| MoreComments (hidden : list Comment).

Definition CommentForest := list ForestItem.

(** What an attribute access that goes to the network yields. *)
Inductive fetched (A : Type) : Type :=
| Fetched (a : A)
| FetchFails (e : string).

Arguments Fetched {A} a.
Arguments FetchFails {A} e.

Record Post : Type := mkPost {
  title : string;
  score : Z;
  url : string;
  comment_sort : string;
  comments : fetched CommentForest
}.

(** The iterator [subreddit.top(...)] returns.  It is lazy: a request
    can fail when the first post is asked for (no such community) or
    later, when a further page is asked for. *)
Inductive Listing : Type :=
| Exhausted
| Yield (post : Post) (rest : Listing)
| Fault (e : string).

(** The choices of [--time]. *)
Inductive TimeFilter : Type := Hour | Day | Week | Month | Year | All.

Definition str_of_time (t : TimeFilter) : string :=
  match t with
  | Hour => "hour" | Day => "day" | Week => "week"
  | Month => "month" | Year => "year" | All => "all"
  end.

(** The client object: what [reddit.user.me()] does and what
    [reddit.subreddit(name).top(time_filter=..., limit=...)] iterates. *)
Record Reddit : Type := mkReddit {
  user_me : fetched unit;
  subreddit_top : string -> TimeFilter -> Z -> Listing
}.

(** What the process finds around it: the environment as [os.getenv]
    reads it once [load_dotenv()] has run, and the constructor of the
    client. *)
Record World : Type := mkWorld {
  getenv : string -> option string;
  praw_Reddit : option string -> option string -> option string -> fetched Reddit
}.

(** The namespace [parser.parse_args()] returns. *)
Record Args : Type := mkArgs {
  args_subreddit : string;
  args_limit : Z;
  args_time : TimeFilter;
  args_comments : Z
}.

(** A call into the client: its value, or the exception it raises. *)
Definition call {A} (r : fetched A) : IO A :=
  match r with
  | Fetched a => ret a
  | FetchFails e => raise e
  end.

(** The line feed inside a printed string. *)
Definition nl : string := String "010"%char "".

(** Truth value of what [os.getenv] returns: [None] and the empty
    string are false. *)
Definition truthy (v : option string) : bool :=
  match v with
  | None => false
  | Some s => negb (s =? "")%string
  end.

(** ** Comments of a post *)

(** Line 65: [not comment.stickied and comment.body != "[deleted]" and
    comment.body != "[removed]"]. *)
Definition eligible (comment : Comment) : bool :=
  negb (stickied comment)
  && negb (body comment =? "[deleted]")%string
  && negb (body comment =? "[removed]")%string.

(** Line 59, [post.comments.replace_more(limit=0)]: in the source's
    words, remove the "more comments" links.  With the limit 0 no
    placeholder is replaced by the comments it stands for; each one is
    taken out of the collection, and no request is made. *)
Fixpoint replace_more_0 (forest : CommentForest) : CommentForest :=
  match forest with
  | [] => []
  | IsComment c :: rest => IsComment c :: replace_more_0 rest
  | MoreComments _ :: rest => replace_more_0 rest
  end.

(** The comments present in the collection itself, in its order. *)
Fixpoint direct_comments (forest : CommentForest) : list Comment :=
  match forest with
  | [] => []
  | IsComment c :: rest => c :: direct_comments rest
  | MoreComments _ :: rest => direct_comments rest
  end.

(** The comments the placeholders of the collection stand for. *)
Fixpoint hidden_comments (forest : CommentForest) : list Comment :=
  match forest with
  | [] => []
  | IsComment _ :: rest => hidden_comments rest
  | MoreComments hidden :: rest => hidden ++ hidden_comments rest
  end.

(** ** The selection in the specification's words *)

(** Filter, then truncate: the first [comment_limit] eligible comments
    of the sequence, in its order. *)
Definition filter_then_truncate (comment_limit : Z) (cs : list Comment)
    : list Comment :=
  firstn (Z.to_nat comment_limit) (filter eligible cs).

(** The first failure a run over the listing meets: the listing's own,
    or that of a post whose comments cannot be fetched. *)
Fixpoint listing_failure (top_posts : Listing) : option string :=
  match top_posts with
  | Exhausted => None
  | Fault e => Some e
  | Yield post rest =>
    match comments post with
    | FetchFails e => Some e
    | Fetched _ => listing_failure rest
    end
  end.

(** The posts a run over the listing enters: those up to the first
    post whose comments cannot be fetched, that post included. *)
Fixpoint posts_entered (top_posts : Listing) : list Post :=
  match top_posts with
  | Exhausted => []
  | Fault _ => []
  | Yield post rest =>
    match comments post with
    | FetchFails _ => [post]
    | Fetched _ => post :: posts_entered rest
    end
  end.

(** The three names [get_reddit_instance] reads. *)
Definition credential_names : list string :=
  ["REDDIT_CLIENT_ID"; "REDDIT_CLIENT_SECRET"; "REDDIT_USER_AGENT"].

(** A credential is missing (unset) or blank (set to the empty string). *)
Definition missing_or_blank (w : World) (name : string) : Prop :=
  getenv w name = None \/ getenv w name = Some "".

(** Line 18: [all([client_id, client_secret, user_agent])]. *)
Definition credentials_found (w : World) : bool :=
  forallb truthy (map (getenv w) credential_names).

(** Remote authentication with the credentials of the environment:
    building the client, then asking who the user is. *)
Definition authenticate (w : World) : fetched Reddit :=
  match praw_Reddit w (getenv w "REDDIT_CLIENT_ID")
                    (getenv w "REDDIT_CLIENT_SECRET")
                    (getenv w "REDDIT_USER_AGENT") with
  | Fetched reddit =>
    match user_me reddit with
    | Fetched _ => Fetched reddit
    | FetchFails e => FetchFails e
    end
  | FetchFails e => FetchFails e
  end.

(** ** Sample data *)

(** An instance of the [textwrap.fill] parameter for closed examples:
    the indent followed by the text, which is what [textwrap.fill]
    returns for a text of one short word. *)
Definition indent_word (text : string) (width : nat)
    (initial_indent subsequent_indent : string) : string :=
  if (text =? "")%string then "" else (initial_indent ++ text)%string.

Definition pinned : Comment := mkComment "Read the rules" 50 true.
Definition hello : Comment := mkComment "hello" 10 false.
Definition gone : Comment := mkComment "[deleted]" 9 false.
Definition world : Comment := mkComment "world" 5 false.
Definition late : Comment := mkComment "later" 4 false.

(** Four comments of the first response and a placeholder for a fifth. *)
Definition forest_A : CommentForest :=
  [IsComment pinned; IsComment hello; IsComment gone; IsComment world;
   MoreComments [late]].

Definition post_A : Post :=
  mkPost "A" 100 "https://example.org/a" "confidence" (Fetched forest_A).

(** A post without comments. *)
Definition post_B : Post :=
  mkPost "B" (-3) "https://example.org/b" "confidence" (Fetched []).

(** A post whose comments cannot be fetched. *)
Definition post_C : Post :=
  mkPost "C" 7 "https://example.org/c" "confidence" (FetchFails "timed out").

(** A post whose comments are all pinned or gone. *)
Definition post_D : Post :=
  mkPost "D" 1 "https://example.org/d" "confidence"
         (Fetched [IsComment pinned; IsComment gone]).

Definition reddit_test : Reddit :=
  mkReddit (Fetched tt) (fun _ _ _ => Yield post_C (Yield post_B Exhausted)).


Definition args_test : Args := mkArgs "test" 2 Week 2.

(** ** Further definitions *)

(** Lines 19-21 as printed. *)
Definition credentials_diagnostic : stdout :=
  [ "🔴 ERROR: Reddit API credentials not found.";
    "Please set REDDIT_CLIENT_ID, REDDIT_CLIENT_SECRET, and REDDIT_USER_AGENT environment variables.";
    "Check the README.md for instructions." ].

(** Line 32 as printed. *)
Definition auth_success : string :=
  "✅ Successfully authenticated with Reddit API.".

(** Line 35 as printed. *)
Definition auth_diagnostic (e : string) : string :=
  ("🔴 ERROR: Could not authenticate with Reddit. Please check your credentials. Details: "
     ++ e)%string.




(** A listing that yields the posts and ends without a failure. *)
Definition listing_of (posts : list Post) : Listing :=
  fold_right Yield Exhausted posts.

(** The same comment with another score. *)
Definition rescore (f : Comment -> Z) (c : Comment) : Comment :=
  mkComment (body c) (f c) (stickied c).

Definition rescore_item (f : Comment -> Z) (item : ForestItem) : ForestItem :=
  match item with
  | IsComment c => IsComment (rescore f c)
  | MoreComments hidden => MoreComments (map (rescore f) hidden)
  end.

(** An environment without the client secret. *)
Definition world_no_secret : World :=
  mkWorld (fun name => if (name =? "REDDIT_CLIENT_SECRET")%string then None
                       else Some "value")
          (fun _ _ _ => Fetched reddit_test).

(** Credentials the platform rejects. *)
Definition world_rejected : World :=
  mkWorld (fun _ => Some "value")
          (fun _ _ _ => Fetched (mkReddit (FetchFails "received 401 HTTP response")
                                          (fun _ _ _ => Exhausted))).

(** A community with two posts whose comments can be fetched. *)
Definition world_two_posts : World :=
  mkWorld (fun _ => Some "value")
          (fun _ _ _ => Fetched (mkReddit (Fetched tt)
                                          (fun _ _ _ => listing_of [post_A; post_B]))).

(** No such community: the first request of the listing fails. *)
Definition world_no_community : World :=
  mkWorld (fun _ => Some "value")
          (fun _ _ _ => Fetched (mkReddit (Fetched tt)
                                          (fun _ _ _ => Fault "received 404 HTTP response"))).

Section Newsletter.

(** [textwrap.fill(text, width=, initial_indent=, subsequent_indent=)]
    of Python's library. *)
Variable textwrap_fill : string -> nat -> string -> string -> string.

(** Lines 66-70: what is printed for one comment. *)
Definition comment_entry (comment : Comment) : list string :=
  [ ("  - (Score: " ++ str_of_int (comment_score comment) ++ ")")%string;
    textwrap_fill (body comment) 70%nat "    " "    ";
    str_mul "-" 20 ].

(** Lines 62-71, with [comments_fetched] as the loop carries it.
    [selected] is a ghost variable: the comments printed so far.  A
    placeholder has no attribute [stickied]; reading it raises. *)
Fixpoint comment_loop (comment_limit : Z) (forest : CommentForest)
    (comments_fetched : Z) (selected : list Comment) : IO (Z * list Comment) :=
  match forest with
  | [] => ret (comments_fetched, selected)
  | item :: rest =>
    if comments_fetched >=? comment_limit then
      ret (comments_fetched, selected)
    else
      match item with
      | MoreComments _ =>
        raise "'MoreComments' object has no attribute 'stickied'"
      | IsComment comment =>
        if eligible comment then
          (print ("  - (Score: " ++ str_of_int (comment_score comment) ++ ")")%string;;
           print (textwrap_fill (body comment) 70%nat "    " "    ");;
           print (str_mul "-" 20);;
           comment_loop comment_limit rest (comments_fetched + 1)
                        (selected ++ [comment]))%io
        else
          comment_loop comment_limit rest comments_fetched selected
      end
  end.

(** Lines 51-76: the body of the loop over the posts.  The post object
    is changed in place (its sort order, its comment collection); the
    changed object is returned. *)
Definition process_post (comment_limit : Z) (i : nat) (post : Post) : IO Post :=
  (print (nl ++ str_mul "=" 10 ++ " POST #" ++ str_of_int (Z.of_nat i + 1)
             ++ " " ++ str_mul "=" 10)%string;;
   print ("📄 TITLE: " ++ title post)%string;;
   print ("👍 SCORE: " ++ str_of_int (score post))%string;;
   print ("🔗 URL: " ++ url post)%string;;
   print (nl ++ "💬 TOP COMMENTS:" ++ nl)%string;;
   (* line 58 *)
   let post := mkPost (title post) (score post) (url post) "top" (comments post) in
   (* line 59: [post.comments] fetches, [replace_more(limit=0)] changes *)
   forest <- call (comments post);;
   let forest := replace_more_0 forest in
   let post := mkPost (title post) (score post) (url post) (comment_sort post)
                      (Fetched forest) in
   r <- comment_loop comment_limit forest 0 [];;
   (if fst r =? 0 then print "    No valid comments found for this post."
    else ret tt);;
   print (str_mul "=" 30 ++ nl)%string;;
   ret post)%io.

(** Line 50: [for i, post in enumerate(top_posts)]. *)
Fixpoint post_loop (comment_limit : Z) (i : nat) (top_posts : Listing) : IO unit :=
  match top_posts with
  | Exhausted => ret tt
  | Fault e => raise e
  | Yield post rest =>
    (_ <- process_post comment_limit i post;;
     post_loop comment_limit (S i) rest)%io
  end.

(** Lines 43-80: one [try] around the announcement and the whole loop. *)
Definition get_newletter_content (reddit : Reddit) (subreddit_name : string)
    (limit : Z) (time_filter : TimeFilter) (comment_limit : Z) : IO unit :=
  try_except
    (print (nl ++ "🔍 Hunting for top " ++ str_of_int limit ++ " posts in r/"
               ++ subreddit_name ++ " from the past " ++ str_of_time time_filter
               ++ "...")%string;;
     let top_posts := subreddit_top reddit subreddit_name time_filter limit in
     print (str_mul "-" 80);;
     post_loop comment_limit 0 top_posts)%io
    (fun e =>
       (print (nl ++ "🔴 ERROR: Could not fetch posts from r/" ++ subreddit_name
                  ++ ".")%string;;
        print ("Please ensure the subreddit exists and is public. Details: "
                 ++ e)%string)%io).

(** Lines 12-36; [load_dotenv()] has filled the environment [getenv]
    reads. *)
Definition get_reddit_instance (w : World) : IO Reddit :=
  let client_id := getenv w "REDDIT_CLIENT_ID" in
  let client_secret := getenv w "REDDIT_CLIENT_SECRET" in
  let user_agent := getenv w "REDDIT_USER_AGENT" in
  ((if negb (forallb truthy [client_id; client_secret; user_agent]) then
      (print "🔴 ERROR: Reddit API credentials not found.";;
       print "Please set REDDIT_CLIENT_ID, REDDIT_CLIENT_SECRET, and REDDIT_USER_AGENT environment variables.";;
       print "Check the README.md for instructions.";;
       exit 1)
    else ret tt);;
   try_except
     (reddit <- call (praw_Reddit w client_id client_secret user_agent);;
      call (user_me reddit);;
      print "✅ Successfully authenticated with Reddit API.";;
      ret reddit)
     (fun e =>
        (print ("🔴 ERROR: Could not authenticate with Reddit. Please check your credentials. Details: "
                  ++ e)%string;;
         exit 1)))%io.

(** Lines 109-114 of [main], from the parsed arguments on. *)
Definition main (w : World) (args : Args) : IO unit :=
  (reddit <- get_reddit_instance w;;
   get_newletter_content reddit (args_subreddit args) (args_limit args)
                         (args_time args) (args_comments args);;
   print (nl ++ "✅ All done! Copy the output above and use it with your AI tool.")%string)%io.

(** ** What a run prints and how it ends, from an empty terminal *)

Definition printed {A} (m : IO A) : stdout := fst (m []).

Definition result {A} (m : IO A) : outcome A := snd (m []).

(** The comment selection of a post (lines 57-71): the comments the
    loop prints, for the collection the client fetched. *)
Definition selectTopComments (comment_limit : Z) (forest : CommentForest)
    : list Comment :=
  match result (comment_loop comment_limit (replace_more_0 forest) 0 []) with
  | Normal (_, selected) => selected
  | _ => []
  end.

(** The comment section of a post (lines 61-71) as printed. *)
Definition comment_section (comment_limit : Z) (forest : CommentForest)
    : stdout :=
  printed (comment_loop comment_limit (replace_more_0 forest) 0 []).

(** Lines 51-55 as printed. *)
Definition post_header (i : nat) (post : Post) : stdout :=
  [ (nl ++ "========== POST #" ++ str_of_int (Z.of_nat i + 1) ++ " ==========")%string;
    ("📄 TITLE: " ++ title post)%string;
    ("👍 SCORE: " ++ str_of_int (score post))%string;
    ("🔗 URL: " ++ url post)%string;
    (nl ++ "💬 TOP COMMENTS:" ++ nl)%string ].

Definition no_valid_comments : string :=
  "    No valid comments found for this post.".

Definition closing_border : string :=
  ("==============================" ++ nl)%string.

(** What the body of the post loop prints for a post: header, comment
    section or placeholder line, closing border; the header alone when
    the comments cannot be fetched. *)
Definition render_post (comment_limit : Z) (i : nat) (post : Post) : stdout :=
  match comments post with
  | Fetched forest =>
    post_header i post
    ++ comment_section comment_limit forest
    ++ match selectTopComments comment_limit forest with
       | [] => [no_valid_comments]
       | _ :: _ => []
       end
    ++ [closing_border]
  | FetchFails _ => post_header i post
  end.

Fixpoint render_posts (comment_limit : Z) (i : nat) (posts : list Post) : stdout :=
  match posts with
  | [] => []
  | post :: rest =>
    render_post comment_limit i post ++ render_posts comment_limit (S i) rest
  end.

(** Lines 44 and 48 as printed. *)
Definition prelude (subreddit_name : string) (limit : Z)
    (time_filter : TimeFilter) : stdout :=
  [ (nl ++ "🔍 Hunting for top " ++ str_of_int limit ++ " posts in r/"
        ++ subreddit_name ++ " from the past " ++ str_of_time time_filter
        ++ "...")%string;
    "--------------------------------------------------------------------------------" ].

(** Lines 79-80 as printed: the diagnostic of the handler. *)
Definition fetch_diagnostic (subreddit_name e : string) : stdout :=
  [ (nl ++ "🔴 ERROR: Could not fetch posts from r/" ++ subreddit_name ++ ".")%string;
    ("Please ensure the subreddit exists and is public. Details: " ++ e)%string ].

Definition all_done : string :=
  (nl ++ "✅ All done! Copy the output above and use it with your AI tool.")%string.

(** * Properties *)

Arguments str_mul : simpl never.
Arguments str_of_int : simpl never.
Arguments String.append : simpl never.

(** ** The collection after line 59 *)

Lemma replace_more_0_direct (forest : CommentForest) :
  replace_more_0 forest = map IsComment (direct_comments forest).
Proof.
  induction forest as [|[c|hidden] rest IH]; simpl; congruence.
Qed.

Lemma direct_comments_map (cs : list Comment) :
  direct_comments (map IsComment cs) = cs.
Proof.
  induction cs as [|c cs IH]; simpl; congruence.
Qed.

Lemma eligible_spec (c : Comment) :
  eligible c = true <->
  stickied c = false /\ body c <> "[deleted]" /\ body c <> "[removed]".
Proof.
  unfold eligible.
  rewrite !andb_true_iff, !negb_true_iff, !String.eqb_neq.
  tauto.
Qed.

(** *** The loop over the comments *)

(** The loop started with [n] comments already fetched, on a collection
    without placeholders: it prints the entries of the first
    [comment_limit - n] eligible comments and counts them. *)
Lemma comment_loop_run (cs : list Comment) :
  forall (comment_limit n : Z) (sel : list Comment) (out : stdout),
    comment_loop comment_limit (map IsComment cs) n sel out =
    (out ++ flat_map comment_entry
                     (firstn (Z.to_nat (comment_limit - n)) (filter eligible cs)),
     Normal (n + Z.of_nat (List.length (firstn (Z.to_nat (comment_limit - n))
                                          (filter eligible cs))),
             sel ++ firstn (Z.to_nat (comment_limit - n)) (filter eligible cs))).
Proof.
  induction cs as [|c cs IH]; intros comment_limit n sel out.
  - simpl. rewrite firstn_nil. simpl.
    rewrite !app_nil_r, Z.add_0_r. reflexivity.
  - cbn [map comment_loop].
    destruct (n >=? comment_limit) eqn:Hbreak.
    + apply Z.geb_le in Hbreak.
      replace (Z.to_nat (comment_limit - n)) with O by lia.
      simpl. rewrite !app_nil_r, Z.add_0_r. reflexivity.
    + rewrite Z.geb_leb in Hbreak. apply Z.leb_gt in Hbreak.
      cbn [filter].
      destruct (eligible c) eqn:Hc.
      * replace (Z.to_nat (comment_limit - n))
          with (S (Z.to_nat (comment_limit - (n + 1)))) by lia.
        unfold bind, print. rewrite IH.
        cbn [firstn flat_map List.length].
        rewrite <- !app_assoc, Nat2Z.inj_succ. cbn [app comment_entry].
        do 3 f_equal. lia.
      * apply IH.
Qed.

Lemma selectTopComments_eq (comment_limit : Z) (forest : CommentForest) :
  selectTopComments comment_limit forest =
  filter_then_truncate comment_limit (direct_comments forest).
Proof.
  unfold selectTopComments, result.
  rewrite replace_more_0_direct, comment_loop_run.
  simpl. rewrite Z.sub_0_r. reflexivity.
Qed.

Lemma comment_section_eq (comment_limit : Z) (forest : CommentForest) :
  comment_section comment_limit forest =
  flat_map comment_entry (selectTopComments comment_limit forest).
Proof.
  rewrite selectTopComments_eq.
  unfold comment_section, printed.
  rewrite replace_more_0_direct, comment_loop_run.
  simpl. rewrite Z.sub_0_r. reflexivity.
Qed.

(** *** One post *)

Lemma selection_empty_iff_count (comment_limit : Z) (cs : list Comment) :
  (0 + Z.of_nat (List.length (firstn (Z.to_nat (comment_limit - 0))
                                     (filter eligible cs))) =? 0)
  = match filter_then_truncate comment_limit cs with
    | [] => true
    | _ :: _ => false
    end.
Proof.
  unfold filter_then_truncate. rewrite Z.sub_0_r.
  destruct (firstn (Z.to_nat comment_limit) (filter eligible cs)); reflexivity.
Qed.

Lemma process_post_run (comment_limit : Z) (i : nat) (post : Post)
    (forest : CommentForest) (out : stdout) :
  comments post = Fetched forest ->
  process_post comment_limit i post out =
  (out ++ render_post comment_limit i post,
   Normal (mkPost (title post) (score post) (url post) "top"
                  (Fetched (replace_more_0 forest)))).
Proof.
  intros Hfetch.
  unfold process_post, render_post, bind, print, call. rewrite Hfetch.
  cbn [ret comments title score url comment_sort].
  rewrite comment_section_eq, selectTopComments_eq.
  rewrite replace_more_0_direct, comment_loop_run.
  cbn [fst]. rewrite selection_empty_iff_count.
  unfold filter_then_truncate at 1. rewrite Z.sub_0_r.
  fold (filter_then_truncate comment_limit (direct_comments forest)).
  destruct (filter_then_truncate comment_limit (direct_comments forest));
    unfold print, ret; rewrite <- !app_assoc; reflexivity.
Qed.

Lemma process_post_fails (comment_limit : Z) (i : nat) (post : Post)
    (e : string) (out : stdout) :
  comments post = FetchFails e ->
  process_post comment_limit i post out =
  (out ++ render_post comment_limit i post, Raised e).
Proof.
  intros Hfetch.
  unfold process_post, render_post, bind, print, call. rewrite Hfetch.
  cbn [raise comments]. rewrite <- !app_assoc. reflexivity.
Qed.

(** *** The loop over the posts *)

Lemma post_loop_run (top_posts : Listing) :
  forall (comment_limit : Z) (i : nat) (out : stdout),
    post_loop comment_limit i top_posts out =
    (out ++ render_posts comment_limit i (posts_entered top_posts),
     match listing_failure top_posts with
     | Some e => Raised e
     | None => Normal tt
     end).
Proof.
  induction top_posts as [|post rest IH|e]; intros comment_limit i out.
  - simpl. unfold ret. rewrite app_nil_r. reflexivity.
  - cbn [post_loop posts_entered listing_failure]. unfold bind.
    destruct (comments post) as [forest|e] eqn:Hfetch.
    + rewrite (process_post_run _ _ _ forest) by assumption.
      rewrite IH. cbn [render_posts]. rewrite <- app_assoc. reflexivity.
    + rewrite (process_post_fails _ _ _ e) by assumption.
      cbn [render_posts]. rewrite app_nil_r. reflexivity.
  - simpl. unfold raise. rewrite app_nil_r. reflexivity.
Qed.

(** The single handler of [get_newletter_content] encloses the whole
    loop: the function always returns, and a failure ends the loop. *)
Lemma get_newletter_content_run (reddit : Reddit) (subreddit_name : string)
    (limit : Z) (time_filter : TimeFilter) (comment_limit : Z) (out : stdout) :
  get_newletter_content reddit subreddit_name limit time_filter comment_limit out =
  (out ++ prelude subreddit_name limit time_filter
       ++ render_posts comment_limit 0
            (posts_entered (subreddit_top reddit subreddit_name time_filter limit))
       ++ match listing_failure
                  (subreddit_top reddit subreddit_name time_filter limit) with
          | Some e => fetch_diagnostic subreddit_name e
          | None => []
          end,
   Normal tt).
Proof.
  unfold get_newletter_content, try_except, bind, print.
  rewrite post_loop_run.
  destruct (listing_failure _) as [e|].
  - unfold print, prelude, fetch_diagnostic.
    rewrite <- !app_assoc. reflexivity.
  - unfold prelude. rewrite app_nil_r, <- !app_assoc. reflexivity.
Qed.

(** *** Start-up *)

Lemma truthy_false_iff (v : option string) :
  truthy v = false <-> v = None \/ v = Some "".
Proof.
  destruct v as [s|]; simpl.
  - rewrite negb_false_iff, String.eqb_eq. split.
    + intros ->. now right.
    + intros [H|H]; congruence.
  - split; auto.
Qed.

Lemma credentials_found_false_iff (w : World) :
  credentials_found w = false <->
  exists name, In name credential_names /\ missing_or_blank w name.
Proof.
  unfold credentials_found, missing_or_blank. split.
  - intros H.
    destruct (forallb truthy (map (getenv w) credential_names)) eqn:Hall;
      [discriminate|].
    clear H. induction credential_names as [|name names IH].
    + discriminate.
    + simpl in Hall. apply andb_false_iff in Hall as [Hone|Hrest].
      * exists name. split; [now left|]. now apply truthy_false_iff.
      * destruct (IH Hrest) as [k [Hin Hk]]. exists k. split; [now right|exact Hk].
  - intros [name [Hin Hname]].
    apply truthy_false_iff in Hname.
    destruct (forallb truthy (map (getenv w) credential_names)) eqn:Hall;
      [|reflexivity].
    rewrite forallb_forall in Hall.
    rewrite (Hall (getenv w name)) in Hname; [discriminate|].
    now apply in_map.
Qed.



Lemma get_reddit_instance_connected (w : World) (reddit : Reddit) (out : stdout) :
  credentials_found w = true ->
  authenticate w = Fetched reddit ->
  get_reddit_instance w out =
  (out ++ ["✅ Successfully authenticated with Reddit API."], Normal reddit).
Proof.
  intros Hcred Hauth. unfold get_reddit_instance, bind, try_except.
  unfold credentials_found in Hcred. cbn [map credential_names] in Hcred.
  rewrite Hcred. cbn [negb ret]. unfold authenticate in Hauth.
  destruct (praw_Reddit w _ _ _) as [r|e1]; [|discriminate]. cbn [call ret].
  destruct (user_me r) as [u|e2]; [|discriminate]. cbn [ret].
  injection Hauth as ->. reflexivity.
Qed.

Lemma main_connected (w : World) (args : Args) (reddit : Reddit) (out : stdout) :
  credentials_found w = true ->
  authenticate w = Fetched reddit ->
  main w args out =
  (out ++ ["✅ Successfully authenticated with Reddit API."]
       ++ prelude (args_subreddit args) (args_limit args) (args_time args)
       ++ render_posts (args_comments args) 0
            (posts_entered (subreddit_top reddit (args_subreddit args)
                                          (args_time args) (args_limit args)))
       ++ match listing_failure
                  (subreddit_top reddit (args_subreddit args)
                                 (args_time args) (args_limit args)) with
          | Some e => fetch_diagnostic (args_subreddit args) e
          | None => []
          end
       ++ [all_done],
   Normal tt).
Proof.
  intros Hcred Hauth. unfold main, bind.
  rewrite (get_reddit_instance_connected w reddit) by assumption.
  rewrite get_newletter_content_run. unfold print.
  rewrite <- !app_assoc. reflexivity.
Qed.

(** ** The claims *)

Lemma In_firstn {A} (n : nat) (l : list A) (x : A) :
  In x (firstn n l) -> In x l.
Proof.
  intros Hin. rewrite <- (firstn_skipn n l). apply in_or_app. now left.
Qed.

(** C1, amended: for every collection and every [comment_limit] the
    selection has at most [max 0 comment_limit] comments (at most
    [comment_limit] when that is not negative), and every selected
    comment is not stickied and its body is neither "[deleted]" nor
    "[removed]". *)
Theorem selection_bounded_and_eligible (comment_limit : Z)
    (forest : CommentForest) :
  Z.of_nat (List.length (selectTopComments comment_limit forest))
    <= Z.max 0 comment_limit
  /\ Forall (fun c => stickied c = false
                      /\ body c <> "[deleted]" /\ body c <> "[removed]")
            (selectTopComments comment_limit forest).
Proof.
  rewrite selectTopComments_eq. unfold filter_then_truncate. split.
  - rewrite length_firstn. lia.
  - apply Forall_forall. intros c Hin.
    apply In_firstn, filter_In in Hin.
    now apply eligible_spec.
Qed.

(** C2: the selection is filter-then-truncate over the collection's
    comments in their upstream order: the first [comment_limit]
    eligible ones, a prefix of the eligible comments, never re-sorted. *)
Theorem selection_keeps_upstream_order (comment_limit : Z)
    (forest : CommentForest) :
  selectTopComments comment_limit forest
  = filter_then_truncate comment_limit (direct_comments forest)
  /\ exists later,
       filter eligible (direct_comments forest)
       = selectTopComments comment_limit forest ++ later.
Proof.
  rewrite selectTopComments_eq. unfold filter_then_truncate. split.
  - reflexivity.
  - exists (skipn (Z.to_nat comment_limit)
                  (filter eligible (direct_comments forest))).
    symmetry. apply firstn_skipn.
Qed.

(** C3, amended: before traversal line 59 removes the "load more"
    placeholders without expanding any of them.  The sequence the loop
    traverses is exactly the comments of the first response, in their
    order: what is printed for the post is the entries of the first
    [comment_limit] eligible ones among them, every selected comment is
    one of them, and the comments the placeholders stand for are not
    considered, since a collection with the same first-response
    comments and any other placeholders is printed the same. *)
Theorem placeholders_removed_not_expanded (comment_limit : Z) (i : nat)
    (post : Post) (forest : CommentForest) (out : stdout)
    (Hfetch : comments post = Fetched forest) :
  process_post comment_limit i post out
  = (out ++ post_header i post
         ++ flat_map comment_entry
                     (filter_then_truncate comment_limit (direct_comments forest))
         ++ match filter_then_truncate comment_limit (direct_comments forest) with
            | [] => [no_valid_comments]
            | _ :: _ => []
            end
         ++ [closing_border],
     Normal (mkPost (title post) (score post) (url post) "top"
                    (Fetched (map IsComment (direct_comments forest)))))
  /\ (forall c, In c (selectTopComments comment_limit forest) ->
                In c (direct_comments forest))
  /\ (forall forest',
        direct_comments forest' = direct_comments forest ->
        fst (process_post comment_limit i
               (mkPost (title post) (score post) (url post) (comment_sort post)
                       (Fetched forest')) out)
        = fst (process_post comment_limit i post out)).
Proof.
  assert (Hrender : forall p f,
             comments p = Fetched f ->
             render_post comment_limit i p
             = post_header i p
               ++ flat_map comment_entry
                           (filter_then_truncate comment_limit (direct_comments f))
               ++ match filter_then_truncate comment_limit (direct_comments f) with
                  | [] => [no_valid_comments]
                  | _ :: _ => []
                  end
               ++ [closing_border]).
  { intros p f Hp. unfold render_post.
    rewrite Hp, comment_section_eq, selectTopComments_eq. reflexivity. }
  split; [|split].
  - rewrite (process_post_run _ _ _ forest) by assumption.
    rewrite (Hrender post forest) by assumption.
    now rewrite replace_more_0_direct.
  - intros c Hin. rewrite selectTopComments_eq in Hin.
    unfold filter_then_truncate in Hin.
    apply In_firstn, filter_In in Hin. tauto.
  - intros forest' Hsame.
    rewrite (process_post_run _ _ post forest) by assumption.
    rewrite (process_post_run _ _
               (mkPost (title post) (score post) (url post) (comment_sort post)
                       (Fetched forest')) forest') by reflexivity.
    cbn [fst]. f_equal.
    rewrite (Hrender _ forest') by reflexivity.
    rewrite (Hrender post forest) by assumption.
    rewrite Hsame. reflexivity.
Qed.

(** C4, amended: a fetch failure during post or comment listing is not
    fatal: the single handler around the whole loop catches it, the
    diagnostic naming the community and the error is printed and the
    function returns normally; the loop ends at the failing post, so
    the posts after it are not processed. *)
Theorem fetch_failure_ends_the_loop (reddit : Reddit) (subreddit_name : string)
    (limit : Z) (time_filter : TimeFilter) (comment_limit : Z) (out : stdout)
    (e : string)
    (Hfail : listing_failure
               (subreddit_top reddit subreddit_name time_filter limit) = Some e) :
  get_newletter_content reddit subreddit_name limit time_filter comment_limit out
  = (out ++ prelude subreddit_name limit time_filter
         ++ render_posts comment_limit 0
              (posts_entered
                 (subreddit_top reddit subreddit_name time_filter limit))
         ++ fetch_diagnostic subreddit_name e,
     Normal tt)
  /\ forall (before : list Post) (post : Post) (rest : Listing),
       Forall (fun p => exists forest, comments p = Fetched forest) before ->
       comments post = FetchFails e ->
       subreddit_top reddit subreddit_name time_filter limit
       = fold_right Yield (Yield post rest) before ->
       posts_entered (subreddit_top reddit subreddit_name time_filter limit)
       = before ++ [post].
Proof.
  split.
  - rewrite get_newletter_content_run, Hfail. reflexivity.
  - intros before post rest Hbefore Hpost ->. clear Hfail.
    induction Hbefore as [|p before [forest Hp] _ IH]; simpl.
    + now rewrite Hpost.
    + rewrite Hp. now f_equal.
Qed.

(** C5: with [comment_limit = 0] the selection is empty and no comment
    entry is printed, whatever the collection holds. *)
Theorem limit_zero_selects_nothing (forest : CommentForest) :
  selectTopComments 0 forest = [] /\ comment_section 0 forest = [].
Proof.
  rewrite comment_section_eq, selectTopComments_eq. now split.
Qed.

(** C6: when the collection holds no eligible comment the selection is
    empty and the post is printed as its header, the fixed placeholder
    line and the closing border, without any comment entry. *)
Theorem no_eligible_comment_placeholder (comment_limit : Z) (i : nat)
    (post : Post) (forest : CommentForest) (out : stdout)
    (Hfetch : comments post = Fetched forest)
    (Hnone : forall c, In c (direct_comments forest) -> eligible c = false) :
  selectTopComments comment_limit forest = []
  /\ fst (process_post comment_limit i post out)
     = out ++ post_header i post ++ [no_valid_comments; closing_border].
Proof.
  assert (Hsel : selectTopComments comment_limit forest = []).
  { rewrite selectTopComments_eq. unfold filter_then_truncate.
    replace (filter eligible (direct_comments forest)) with (@nil Comment).
    - apply firstn_nil.
    - symmetry. induction (direct_comments forest) as [|c cs IH]; [reflexivity|].
      simpl. rewrite (Hnone c) by now left.
      apply IH. intros c' Hin. apply Hnone. now right. }
  split; [exact Hsel|].
  rewrite (process_post_run _ _ _ forest) by assumption.
  unfold render_post. rewrite Hfetch, comment_section_eq, Hsel. reflexivity.
Qed.


(** C8: for each comment of the selection, that is for each of the
    first [comment_limit] eligible comments of the collection, in
    order, the loop prints the score line, then the body as
    [textwrap.fill] wraps it at width 70 with the 4-space indent for
    the first and for the following lines, then the separator line. *)
Theorem comment_entries_rendered (comment_limit : Z) (forest : CommentForest)
    (out : stdout) :
  fst (comment_loop comment_limit (replace_more_0 forest) 0 [] out)
  = out ++ flat_map
             (fun comment =>
                [ ("  - (Score: " ++ str_of_int (comment_score comment) ++ ")")%string;
                  textwrap_fill (body comment) 70%nat "    " "    ";
                  "--------------------" ])
             (filter_then_truncate comment_limit (direct_comments forest)).
Proof.
  rewrite replace_more_0_direct, comment_loop_run.
  cbn [fst]. unfold filter_then_truncate. rewrite Z.sub_0_r. reflexivity.
Qed.

(** C10: with a negative [comment_limit] the loop stops at its first
    test, before it looks at any comment: nothing is selected, and the
    post is printed with the "No valid comments found for this post."
    line, even when its collection holds eligible comments. *)
Theorem negative_limit_prints_placeholder (comment_limit : Z) (i : nat)
    (post : Post) (forest : CommentForest) (out : stdout)
    (Hneg : comment_limit < 0)
    (Hfetch : comments post = Fetched forest) :
  comment_loop comment_limit (replace_more_0 forest) 0 [] out
  = (out, Normal (0, []))
  /\ selectTopComments comment_limit forest = []
  /\ fst (process_post comment_limit i post out)
     = out ++ post_header i post ++ [no_valid_comments; closing_border].
Proof.
  assert (Hloop : forall items o,
             comment_loop comment_limit items 0 [] o = (o, Normal (0, []))).
  { intros [|item items] o; [reflexivity|].
    cbn [comment_loop].
    replace (0 >=? comment_limit) with true; [reflexivity|].
    symmetry. apply Z.geb_le. lia. }
  assert (Hsel : selectTopComments comment_limit forest = []).
  { unfold selectTopComments, result. now rewrite Hloop. }
  split; [apply Hloop|]. split; [exact Hsel|].
  rewrite (process_post_run _ _ _ forest) by assumption.
  unfold render_post. rewrite Hfetch, comment_section_eq, Hsel. reflexivity.
Qed.

(** ** Further properties of the code *)

(** *** Start-up, lines 12-36 and 111 *)

(** X1: when one of the three credentials is unset or empty, the
    program prints the three lines of lines 19-21 and nothing else and
    leaves with status 1; the client is never built and nothing of
    the arguments is used. *)
Theorem missing_credentials_output (w : World) (args : Args) (out : stdout)
    (Hmissing : exists name, In name credential_names /\ missing_or_blank w name) :
  get_reddit_instance w out = (out ++ credentials_diagnostic, Exited 1)
  /\ main w args out = (out ++ credentials_diagnostic, Exited 1).
Proof.
  apply credentials_found_false_iff in Hmissing.
  unfold credentials_found in Hmissing. cbn [map credential_names] in Hmissing.
  assert (Hstart : get_reddit_instance w out
                   = (out ++ credentials_diagnostic, Exited 1)).
  { unfold get_reddit_instance, bind. rewrite Hmissing. cbn [negb].
    unfold print, exit, credentials_diagnostic.
    rewrite <- !app_assoc. reflexivity. }
  split; [exact Hstart|].
  unfold main, bind. rewrite Hstart. reflexivity.
Qed.

(** X2: when the credentials are there and building the client or
    asking who the user is raises [e], the program prints the single
    line of line 35 with [e] in it, not the success line, and leaves
    with status 1 before anything is fetched. *)
Theorem rejected_credentials_output (w : World) (args : Args) (e : string)
    (out : stdout)
    (Hcred : credentials_found w = true)
    (Hauth : authenticate w = FetchFails e) :
  get_reddit_instance w out = (out ++ [auth_diagnostic e], Exited 1)
  /\ main w args out = (out ++ [auth_diagnostic e], Exited 1).
Proof.
  assert (Hstart : get_reddit_instance w out
                   = (out ++ [auth_diagnostic e], Exited 1)).
  { unfold get_reddit_instance, bind, try_except.
    unfold credentials_found in Hcred. cbn [map credential_names] in Hcred.
    rewrite Hcred. cbn [negb ret]. unfold authenticate in Hauth.
    destruct (praw_Reddit w _ _ _) as [reddit|e1]; cbn [call ret raise].
    - destruct (user_me reddit) as [u|e2]; [discriminate|].
      injection Hauth as ->. reflexivity.
    - injection Hauth as ->. reflexivity. }
  split; [exact Hstart|].
  unfold main, bind. rewrite Hstart. reflexivity.
Qed.

(** *** A whole run, lines 43-80 and 111-114 *)

Lemma listing_of_all_fetched (posts : list Post) :
  Forall (fun p => exists forest, comments p = Fetched forest) posts ->
  posts_entered (listing_of posts) = posts
  /\ listing_failure (listing_of posts) = None.
Proof.
  induction 1 as [|p posts [forest Hp] _ [IHe IHf]]; simpl.
  - now split.
  - rewrite Hp. fold (listing_of posts). rewrite IHe, IHf. now split.
Qed.

Lemma render_posts_numbered (comment_limit : Z) (posts : list Post) :
  forall i : nat,
    render_posts comment_limit i posts
    = List.concat (map (fun kp => render_post comment_limit (fst kp) (snd kp))
                  (combine (seq i (List.length posts)) posts)).
Proof.
  induction posts as [|p posts IH]; intros i; simpl.
  - reflexivity.
  - now rewrite IH.
Qed.

(** X3: when every post of the listing is yielded and has its comments
    fetched, a run prints the success line, the announcement and the
    rule, then every post in the order the listing yields them, each
    one whole and numbered from 1 onwards, then the completion line;
    no diagnostic is printed and the status is 0. *)
Theorem clean_run_output (w : World) (args : Args) (reddit : Reddit)
    (posts : list Post) (out : stdout)
    (Hcred : credentials_found w = true)
    (Hauth : authenticate w = Fetched reddit)
    (Hposts : subreddit_top reddit (args_subreddit args) (args_time args)
                            (args_limit args) = listing_of posts)
    (Hfetched : Forall (fun p => exists forest, comments p = Fetched forest)
                       posts) :
  main w args out
  = (out ++ [auth_success]
         ++ prelude (args_subreddit args) (args_limit args) (args_time args)
         ++ List.concat (map (fun kp => render_post (args_comments args)
                                               (fst kp) (snd kp))
                        (combine (seq 0 (List.length posts)) posts))
         ++ [all_done],
     Normal tt).
Proof.
  rewrite (main_connected w args reddit) by assumption.
  rewrite Hposts.
  destruct (listing_of_all_fetched posts Hfetched) as [-> ->].
  rewrite render_posts_numbered. reflexivity.
Qed.

(** X4: when the first request of the listing fails with [e] (no such
    community, a private one), a run prints the success line, the
    announcement and the rule, the two lines of the diagnostic with
    the community's name and [e], and the completion line: no post
    header, and the status is 0. *)
Theorem no_community_output (w : World) (args : Args) (reddit : Reddit)
    (e : string) (out : stdout)
    (Hcred : credentials_found w = true)
    (Hauth : authenticate w = Fetched reddit)
    (Hfault : subreddit_top reddit (args_subreddit args) (args_time args)
                            (args_limit args) = Fault e) :
  main w args out
  = (out ++ [auth_success]
         ++ prelude (args_subreddit args) (args_limit args) (args_time args)
         ++ fetch_diagnostic (args_subreddit args) e
         ++ [all_done],
     Normal tt).
Proof.
  rewrite (main_connected w args reddit) by assumption.
  rewrite Hfault. reflexivity.
Qed.

(** *** The selection, lines 61-71 *)

(** X5: the selection has exactly as many comments as the limit allows
    and the collection offers: the smaller of [max 0 comment_limit] and
    the number of eligible comments. *)
Theorem selection_length (comment_limit : Z) (forest : CommentForest) :
  Z.of_nat (List.length (selectTopComments comment_limit forest))
  = Z.min (Z.max 0 comment_limit)
          (Z.of_nat (List.length (filter eligible (direct_comments forest)))).
Proof.
  rewrite selectTopComments_eq. unfold filter_then_truncate.
  rewrite length_firstn. lia.
Qed.

(** X6: a larger limit only adds comments at the end: the selection
    for a limit is a prefix of the selection for any larger limit. *)
Theorem selection_grows_with_limit (small large : Z) (forest : CommentForest)
    (Hle : small <= large) :
  exists more,
    selectTopComments large forest = selectTopComments small forest ++ more.
Proof.
  rewrite !selectTopComments_eq. unfold filter_then_truncate.
  set (l := filter eligible (direct_comments forest)).
  exists (skipn (Z.to_nat small) (firstn (Z.to_nat large) l)).
  rewrite <- (firstn_skipn (Z.to_nat small) (firstn (Z.to_nat large) l)) at 1.
  rewrite firstn_firstn.
  replace (Nat.min (Z.to_nat small) (Z.to_nat large)) with (Z.to_nat small)
    by lia.
  reflexivity.
Qed.

Lemma eligible_rescore (f : Comment -> Z) (c : Comment) :
  eligible (rescore f c) = eligible c.
Proof.
  reflexivity.
Qed.

Lemma filter_eligible_rescore (f : Comment -> Z) (cs : list Comment) :
  filter eligible (map (rescore f) cs) = map (rescore f) (filter eligible cs).
Proof.
  induction cs as [|c cs IH]; simpl; [reflexivity|].
  rewrite eligible_rescore. destruct (eligible c); simpl; now rewrite IH.
Qed.

Lemma direct_comments_rescore (f : Comment -> Z) (forest : CommentForest) :
  direct_comments (map (rescore_item f) forest)
  = map (rescore f) (direct_comments forest).
Proof.
  induction forest as [|[c|hidden] rest IH]; simpl; congruence.
Qed.

(** X7: the scores play no part in the selection: there is no score
    floor and no re-sorting, so changing the scores of the comments in
    any way selects the same comments at the same places. *)
Theorem selection_ignores_scores (f : Comment -> Z) (comment_limit : Z)
    (forest : CommentForest) :
  selectTopComments comment_limit (map (rescore_item f) forest)
  = map (rescore f) (selectTopComments comment_limit forest).
Proof.
  rewrite !selectTopComments_eq. unfold filter_then_truncate.
  rewrite direct_comments_rescore, filter_eligible_rescore.
  apply firstn_map.
Qed.

Lemma comment_loop_stops (comment_limit : Z) (cs : list Comment)
    (rest : CommentForest) :
  forall (n : Z) (sel : list Comment) (out : stdout),
    comment_limit - n <= Z.of_nat (List.length (filter eligible cs)) ->
    comment_loop comment_limit (map IsComment cs ++ rest) n sel out
    = comment_loop comment_limit (map IsComment cs) n sel out.
Proof.
  induction cs as [|c cs IH]; intros n sel out Henough.
  - simpl in Henough. destruct rest as [|item rest]; [reflexivity|].
    cbn [map app comment_loop].
    replace (n >=? comment_limit) with true; [reflexivity|].
    symmetry. apply Z.geb_le. lia.
  - cbn [map app comment_loop].
    destruct (n >=? comment_limit) eqn:Hbreak; [reflexivity|].
    rewrite Z.geb_leb in Hbreak. apply Z.leb_gt in Hbreak.
    cbn [filter] in Henough.
    destruct (eligible c).
    + unfold bind, print. apply IH.
      cbn [List.length] in Henough. lia.
    + apply IH. exact Henough.
Qed.

(** X8: once [comment_limit] eligible comments have been met the loop
    breaks and reads nothing of what follows: whatever comes after
    them in the collection, even a placeholder, changes neither what
    is printed nor how the loop ends. *)
Theorem loop_breaks_at_limit (comment_limit : Z) (cs : list Comment)
    (rest : CommentForest) (out : stdout)
    (Henough : comment_limit
               <= Z.of_nat (List.length (filter eligible cs))) :
  comment_loop comment_limit (map IsComment cs ++ rest) 0 [] out
  = (out ++ flat_map comment_entry (filter_then_truncate comment_limit cs),
     Normal (Z.max 0 comment_limit, filter_then_truncate comment_limit cs)).
Proof.
  rewrite comment_loop_stops by lia.
  rewrite comment_loop_run. unfold filter_then_truncate.
  rewrite Z.sub_0_r, length_firstn. cbn [app].
  do 3 f_equal. lia.
Qed.

(** X9: with a positive limit and an eligible comment in the
    collection, the first entry printed is that of the first eligible
    comment in upstream order, and the post is printed as header,
    entries, closing border, without the placeholder line. *)
Theorem first_eligible_comment_first (comment_limit : Z) (i : nat)
    (post : Post) (forest : CommentForest) (first : Comment)
    (others : list Comment) (out : stdout)
    (Hpos : 0 < comment_limit)
    (Hfetch : comments post = Fetched forest)
    (Helig : filter eligible (direct_comments forest) = first :: others) :
  exists following,
    selectTopComments comment_limit forest = first :: following
    /\ fst (process_post comment_limit i post out)
       = out ++ post_header i post
             ++ comment_entry first
             ++ flat_map comment_entry following
             ++ [closing_border].
Proof.
  assert (Hsel : selectTopComments comment_limit forest
                 = first :: firstn (Z.to_nat (comment_limit - 1)) others).
  { rewrite selectTopComments_eq. unfold filter_then_truncate. rewrite Helig.
    replace (Z.to_nat comment_limit)
      with (S (Z.to_nat (comment_limit - 1))) by lia.
    reflexivity. }
  exists (firstn (Z.to_nat (comment_limit - 1)) others).
  split; [exact Hsel|].
  rewrite (process_post_run _ _ _ forest) by assumption.
  unfold render_post. rewrite Hfetch, comment_section_eq, Hsel.
  cbn [fst flat_map]. rewrite <- !app_assoc. reflexivity.
Qed.


End Newsletter.

(** ** The claims at the sample data *)

(** The scenario of the specification: stickied (50), "hello" (10),
    deleted (9), "world" (5), limit 2. *)
Example scenario_post_A :
  selectTopComments indent_word 2 forest_A = [hello; world]
  /\ comment_section indent_word 2 forest_A
     = [ "  - (Score: 10)"; "    hello"; "--------------------";
         "  - (Score: 5)"; "    world"; "--------------------" ].
Proof.
  split; reflexivity.
Qed.

(** A post without comments shows the placeholder and no entry. *)
Example scenario_post_B :
  fst (process_post indent_word 2 1%nat post_B [])
  = post_header 1%nat post_B ++ [no_valid_comments; closing_border].
Proof.
  reflexivity.
Qed.

(** C1 as stated fails: with the limit -1 the selection is empty, and
    its length 0 is not at most -1. *)
Lemma selection_longer_than_negative_limit :
  selectTopComments indent_word (-1) forest_A = []
  /\ ~ (Z.of_nat (List.length (selectTopComments indent_word (-1) forest_A))
        <= -1).
Proof.
  split; [reflexivity|]. vm_compute. intros H. now apply H.
Qed.

(** C3 as stated fails: the comment the placeholder of [forest_A]
    stands for is eligible, yet after line 59 it is not in the
    collection the loop traverses, and a limit that leaves room for it
    does not select it. *)
Lemma placeholder_comment_not_materialized :
  In late (hidden_comments forest_A)
  /\ eligible late = true
  /\ snd (process_post indent_word 3 0%nat post_A [])
     = Normal (mkPost "A" 100 "https://example.org/a" "top"
                      (Fetched [IsComment pinned; IsComment hello;
                                IsComment gone; IsComment world]))
  /\ selectTopComments indent_word 3 forest_A = [hello; world]
  /\ fst (process_post indent_word 3 0%nat post_A [])
     = post_header 0%nat post_A
       ++ [ "  - (Score: 10)"; "    hello"; "--------------------";
            "  - (Score: 5)"; "    world"; "--------------------" ]
       ++ [closing_border]
  /\ ~ In (IsComment late) (replace_more_0 forest_A).
Proof.
  split; [now left|]. split; [reflexivity|]. split; [reflexivity|].
  split; [reflexivity|]. split; [reflexivity|].
  simpl. intros [H|[H|[H|[H|[]]]]]; discriminate.
Qed.

Lemma placeholders_removed_not_expanded_witness :
  process_post indent_word 3 0%nat post_A []
  = ([] ++ post_header 0%nat post_A
        ++ flat_map (comment_entry indent_word)
                    (filter_then_truncate 3 (direct_comments forest_A))
        ++ match filter_then_truncate 3 (direct_comments forest_A) with
           | [] => [no_valid_comments]
           | _ :: _ => []
           end
        ++ [closing_border],
     Normal (mkPost (title post_A) (score post_A) (url post_A) "top"
                    (Fetched (map IsComment (direct_comments forest_A)))))
  /\ (forall c, In c (selectTopComments indent_word 3 forest_A) ->
                In c (direct_comments forest_A))
  /\ (forall forest',
        direct_comments forest' = direct_comments forest_A ->
        fst (process_post indent_word 3 0%nat
               (mkPost (title post_A) (score post_A) (url post_A)
                       (comment_sort post_A) (Fetched forest')) [])
        = fst (process_post indent_word 3 0%nat post_A [])).
Proof.
  apply (placeholders_removed_not_expanded indent_word 3 0%nat post_A forest_A []).
  reflexivity.
Defined.

(** C4 as stated fails: the comments of the first post cannot be
    fetched, and the second post, which has nothing wrong, is never
    printed: the run goes from the first header to the diagnostic. *)
Lemma failing_post_aborts_remaining_posts :
  subreddit_top reddit_test "test" Week 2 = Yield post_C (Yield post_B Exhausted)
  /\ printed (get_newletter_content indent_word reddit_test "test" 2 Week 2)
     = prelude "test" 2 Week ++ post_header 0%nat post_C
       ++ fetch_diagnostic "test" "timed out"
  /\ ~ In ("📄 TITLE: B")
          (printed (get_newletter_content indent_word reddit_test "test" 2 Week 2)).
Proof.
  split; [reflexivity|]. split; [reflexivity|].
  vm_compute. intros H.
  repeat (destruct H as [H|H]; [discriminate H|]). exact H.
Qed.

Lemma fetch_failure_ends_the_loop_witness :
  listing_failure (subreddit_top reddit_test "test" Week 2) = Some "timed out"
  /\ get_newletter_content indent_word reddit_test "test" 2 Week 2 []
     = ([] ++ prelude "test" 2 Week
           ++ render_posts indent_word 2 0%nat
                (posts_entered (subreddit_top reddit_test "test" Week 2))
           ++ fetch_diagnostic "test" "timed out",
        Normal tt).
Proof.
  split; [reflexivity|].
  apply (fetch_failure_ends_the_loop indent_word reddit_test "test" 2 Week 2 []
                                     "timed out").
  reflexivity.
Defined.

Lemma no_eligible_comment_placeholder_witness :
  selectTopComments indent_word 3 [IsComment pinned; IsComment gone] = []
  /\ fst (process_post indent_word 3 1%nat post_D [])
     = [] ++ post_header 1%nat post_D ++ [no_valid_comments; closing_border].
Proof.
  apply (no_eligible_comment_placeholder indent_word 3 1%nat post_D
           [IsComment pinned; IsComment gone] []).
  - reflexivity.
  - simpl. intros c [<-|[<-|[]]]; reflexivity.
Defined.

Lemma negative_limit_prints_placeholder_witness :
  comment_loop indent_word (-2) (replace_more_0 forest_A) 0 [] []
  = ([], Normal (0, []))
  /\ selectTopComments indent_word (-2) forest_A = []
  /\ fst (process_post indent_word (-2) 0%nat post_A [])
     = [] ++ post_header 0%nat post_A ++ [no_valid_comments; closing_border].
Proof.
  apply (negative_limit_prints_placeholder indent_word (-2) 0%nat post_A forest_A []).
  - lia.
  - reflexivity.
Defined.



(** ** The further properties at the sample data *)

Lemma missing_credentials_output_witness :
  get_reddit_instance world_no_secret [] = ([] ++ credentials_diagnostic, Exited 1)
  /\ main indent_word world_no_secret args_test []
     = ([] ++ credentials_diagnostic, Exited 1).
Proof.
  apply (missing_credentials_output indent_word world_no_secret args_test []).
  exists "REDDIT_CLIENT_SECRET". split.
  - simpl. auto.
  - left. reflexivity.
Defined.

Lemma rejected_credentials_output_witness :
  get_reddit_instance world_rejected []
  = ([] ++ [auth_diagnostic "received 401 HTTP response"], Exited 1)
  /\ main indent_word world_rejected args_test []
     = ([] ++ [auth_diagnostic "received 401 HTTP response"], Exited 1).
Proof.
  apply (rejected_credentials_output indent_word world_rejected args_test
           "received 401 HTTP response" []); reflexivity.
Defined.

Lemma clean_run_output_witness :
  main indent_word world_two_posts args_test []
  = ([] ++ [auth_success]
        ++ prelude "test" 2 Week
        ++ List.concat (map (fun kp => render_post indent_word 2 (fst kp) (snd kp))
                            (combine (seq 0 2) [post_A; post_B]))
        ++ [all_done],
     Normal tt).
Proof.
  apply (clean_run_output indent_word world_two_posts args_test
           (mkReddit (Fetched tt) (fun _ _ _ => listing_of [post_A; post_B]))
           [post_A; post_B] []).
  - reflexivity.
  - reflexivity.
  - reflexivity.
  - repeat constructor.
    + exists forest_A. reflexivity.
    + exists []. reflexivity.
Defined.

Lemma no_community_output_witness :
  main indent_word world_no_community args_test []
  = ([] ++ [auth_success]
        ++ prelude "test" 2 Week
        ++ fetch_diagnostic "test" "received 404 HTTP response"
        ++ [all_done],
     Normal tt).
Proof.
  apply (no_community_output indent_word world_no_community args_test
           (mkReddit (Fetched tt) (fun _ _ _ => Fault "received 404 HTTP response"))
           "received 404 HTTP response" []); reflexivity.
Defined.

Lemma selection_grows_with_limit_witness :
  exists more,
    selectTopComments indent_word 2 forest_A
    = selectTopComments indent_word 1 forest_A ++ more.
Proof.
  apply (selection_grows_with_limit indent_word 1 2 forest_A). lia.
Defined.

Lemma loop_breaks_at_limit_witness :
  comment_loop indent_word 1
               (map IsComment [hello; world] ++ [MoreComments [late]]) 0 [] []
  = ([] ++ flat_map (comment_entry indent_word)
                    (filter_then_truncate 1 [hello; world]),
     Normal (Z.max 0 1, filter_then_truncate 1 [hello; world])).
Proof.
  apply (loop_breaks_at_limit indent_word 1 [hello; world]
                              [MoreComments [late]] []).
  simpl. lia.
Defined.

Lemma first_eligible_comment_first_witness :
  exists following,
    selectTopComments indent_word 2 forest_A = hello :: following
    /\ fst (process_post indent_word 2 0%nat post_A [])
       = [] ++ post_header 0%nat post_A
            ++ comment_entry indent_word hello
            ++ flat_map (comment_entry indent_word) following
            ++ [closing_border].
Proof.
  apply (first_eligible_comment_first indent_word 2 0%nat post_A forest_A
                                      hello [world] []).
  - lia.
  - reflexivity.
  - reflexivity.
Defined.
